(** * Drake rendering resource model: pixel traits and OpenGL geometry records

    A shallow embedding of two headers,
    - [systems/sensors/pixel_types.h]: the [PixelType], [PixelFormat] and
      [PixelScalar] enumerations and the [ImageTraits] specialisations;
    - [geometry/render_gl/internal_opengl_geometry.h]: [RenderType],
      [OpenGlGeometry] and [OpenGlInstance];
    followed by the properties the specification states about them. *)

From Stdlib Require Import ZArith Bool String Floats.SpecFloat.
From stdpp Require Import base list.

Local Open Scope Z_scope.

(* ===================================================================== *)
(** ** Part I. systems/sensors/pixel_types.h                              *)
(* ===================================================================== *)

(** [enum class PixelType].  The deprecated enumerator [kExpr] is still an
    enumerator and is kept. *)
Module PixelType.
Inductive t : Set :=
  | kRgb8U | kBgr8U | kRgba8U | kBgra8U | kGrey8U
  | kDepth16U | kDepth32F | kLabel16I
  | kExpr.

Definition all : list t :=
  [kRgb8U; kBgr8U; kRgba8U; kBgra8U; kGrey8U; kDepth16U; kDepth32F; kLabel16I; kExpr].
End PixelType.

(** [enum class PixelFormat]. *)
Module PixelFormat.
Inductive t : Set :=
  | kRgb | kBgr | kRgba | kBgra | kGrey | kDepth | kLabel
  | kExpr.
End PixelFormat.

(** [enum class PixelScalar]: uint8_t, int16_t, uint16_t, float. *)
Module PixelScalar.
Inductive t : Set := k8U | k16I | k16U | k32F.

Definition all : list t := [k8U; k16I; k16U; k32F].
End PixelScalar.

(** The types that occur as [ChannelType] typedefs in the specialisations. *)
Inductive CxxType : Set :=
  | uint8_t | int16_t | uint16_t | float | symbolic_Expression.

(** A constant of some [ChannelType].  Only two channel types carry
    constants in the header: [uint16_t] (an integer) and [float] (an IEEE 754
    binary32 datum, given in the format-independent representation of
    [SpecFloat]). *)
Inductive ChannelValue : Set :=
  | U16 (v : Z)
  | F32 (v : spec_float).

(** [std::numeric_limits<T>::max()] for an unsigned integer type of [bits]
    bits. *)
Definition unsigned_max (bits : Z) : Z := 2 ^ bits - 1.

(** The literal [0.0f]. *)
Definition float_zero : spec_float := S754_zero false.

(** [std::numeric_limits<float>::infinity()]. *)
Definition float_infinity : spec_float := S754_infinity false.

(** One [ImageTraits] specialisation.  A static member that a specialisation
    does not declare is [None]: naming it does not compile. *)
Record ImageTraits : Set := mkImageTraits {
  ChannelType  : CxxType;
  kNumChannels : Z;
  kPixelScalar : option PixelScalar.t;
  kPixelFormat : PixelFormat.t;
  kTooClose    : option ChannelValue;
  kTooFar      : option ChannelValue
}.

(** [template <PixelType> struct ImageTraits;] with its nine explicit
    specialisations, in the order of the header. *)
Definition ImageTraits_of (p : PixelType.t) : ImageTraits :=
  match p with
  | PixelType.kRgb8U =>
      mkImageTraits uint8_t 3 (Some PixelScalar.k8U) PixelFormat.kRgb None None
  | PixelType.kBgr8U =>
      mkImageTraits uint8_t 3 (Some PixelScalar.k8U) PixelFormat.kBgr None None
  | PixelType.kRgba8U =>
      mkImageTraits uint8_t 4 (Some PixelScalar.k8U) PixelFormat.kRgba None None
  | PixelType.kBgra8U =>
      mkImageTraits uint8_t 4 (Some PixelScalar.k8U) PixelFormat.kBgra None None
  | PixelType.kDepth32F =>
      mkImageTraits float 1 (Some PixelScalar.k32F) PixelFormat.kDepth
        (Some (F32 float_zero))
        (Some (F32 float_infinity))
  | PixelType.kDepth16U =>
      mkImageTraits uint16_t 1 (Some PixelScalar.k16U) PixelFormat.kDepth
        (Some (U16 0))
        (Some (U16 (unsigned_max 16)))
  | PixelType.kLabel16I =>
      mkImageTraits int16_t 1 (Some PixelScalar.k16I) PixelFormat.kLabel None None
  | PixelType.kGrey8U =>
      mkImageTraits uint8_t 1 (Some PixelScalar.k8U) PixelFormat.kGrey None None
  | PixelType.kExpr =>
      mkImageTraits symbolic_Expression 1 None PixelFormat.kExpr None None
  end.

(* ===================================================================== *)
(** ** Part II. geometry/render_gl/internal_opengl_geometry.h             *)
(* ===================================================================== *)

(** *** Failure of a call

    The header leaves a function abnormally in two ways: by
    [throw std::logic_error(what)], and through [DRAKE_DEMAND(condition)]. *)
Inductive failure : Set :=
  | std_logic_error (what : string)
  | drake_demand_failed (condition : string).

Inductive outcome (A : Type) : Type :=
  | Returns (a : A)
  | Fails (f : failure).
Arguments Returns {A} a.
Arguments Fails {A} f.

(** Sequencing: a failure ends the call, later statements do not run. *)
#[export] Instance outcome_ret : MRet outcome := fun A a => Returns a.
#[export] Instance outcome_bind : MBind outcome := fun A B k m =>
  match m with
  | Returns a => k a
  | Fails f => Fails f
  end.

(** Modelled from the spec: the macro [DRAKE_DEMAND] is declared in
    [drake/common/drake_assert.h], which is not among the sources.  The
    specification describes a failed demand as a precondition violation
    that is fatal by default; the text of the condition is kept to tell the
    demands apart. *)
Definition DRAKE_DEMAND (condition : string) (holds : bool) : outcome unit :=
  if holds then Returns tt else Fails (drake_demand_failed condition).

(** The call left by an exception of type [std::logic_error]. *)
Definition throws_logic_error {A : Type} (o : outcome A) : Prop :=
  exists what, o = Fails (std_logic_error what).

(** The call left by a failed [DRAKE_DEMAND]. *)
Definition precondition_violation {A : Type} (o : outcome A) : Prop :=
  exists condition, o = Fails (drake_demand_failed condition).

(** The call did not return normally. *)
Definition fails {A : Type} (o : outcome A) : Prop :=
  exists f, o = Fails f.

(** *** RenderType

    [enum RenderType { kColor = 0, kLabel, kDepth, kTypeCount };] an unscoped
    enumeration used as an array index; [kTypeCount] is an enumerator too and
    is the number of the others. *)
Module RenderType.
Inductive t : Set := kColor | kLabel | kDepth | kTypeCount.

Definition value (r : t) : nat :=
  match r with
  | kColor => 0
  | kLabel => 1
  | kDepth => 2
  | kTypeCount => 3
  end.
End RenderType.

(** *** OpenGlGeometry *)

(** Modelled from the spec: [GLuint] is declared by the OpenGL headers
    reached through [internal_opengl_includes.h], not by the sources; the
    specification calls it the handle's unsigned integer representation.
    OpenGL fixes its width at 32 bits.  A [GLuint] is a [Z] in
    [0, 2 ^ GLuint_bits). *)
Definition GLuint_bits : Z := 32.

Definition GLuint_range (h : Z) : Prop := 0 <= h < 2 ^ GLuint_bits.

(** [static constexpr GLuint kInvalid = std::numeric_limits<GLuint>::max();] *)
Definition kInvalid : Z := unsigned_max GLuint_bits.

(** The data members of [struct OpenGlGeometry].  The two [int] members are
    integers; nothing in the header computes with them, so no wrap-around
    arises. *)
Record OpenGlGeometry : Set := mkOpenGlGeometry {
  vertex_array      : Z;
  vertex_buffer     : Z;
  index_buffer      : Z;
  index_buffer_size : Z;
  has_tex_coord     : bool;
  v_count           : Z
}.

(** [OpenGlGeometry() = default;] every member takes its default member
    initialiser: [{kInvalid}] for the handles, [{0}] and [{}] for the rest. *)
Definition OpenGlGeometry_default : OpenGlGeometry :=
  {| vertex_array := kInvalid;
     vertex_buffer := kInvalid;
     index_buffer := kInvalid;
     index_buffer_size := 0;
     has_tex_coord := false;
     v_count := 0 |}.

(** The six-argument constructor: the member initialisers, then the one check
    of its body. *)
Definition OpenGlGeometry_ctor
    (vertex_array_in vertex_buffer_in index_buffer_in : Z)
    (index_buffer_size_in : Z) (has_tex_coord_in : bool) (v_count_in : Z)
  : outcome OpenGlGeometry :=
  let this :=
    {| vertex_array := vertex_array_in;
       vertex_buffer := vertex_buffer_in;
       index_buffer := index_buffer_in;
       index_buffer_size := index_buffer_size_in;
       has_tex_coord := has_tex_coord_in;
       v_count := v_count_in |} in
  if index_buffer_size this <? 0
  then Fails (std_logic_error "Index buffer size must be non-negative")
  else Returns this.

(** [bool is_defined() const] *)
Definition is_defined (this : OpenGlGeometry) : bool :=
  negb (vertex_array this =? kInvalid) &&
  negb (vertex_buffer this =? kInvalid) &&
  negb (index_buffer this =? kInvalid).

(** [void throw_if_undefined(const char* message) const] *)
Definition throw_if_undefined (this : OpenGlGeometry) (message : string)
  : outcome unit :=
  if negb (is_defined this) then Fails (std_logic_error message)
  else Returns tt.

(** *** OpenGlInstance *)

(** What the header takes from its includes and only stores or queries:
    [math::RigidTransformd] and [Vector3<double>] are stored untouched;
    of [ShaderProgramData] the header uses the default constructor (through
    [std::array]), assignment, and [shader_id().is_valid()]. *)
Class Collaborators : Type := {
  RigidTransformd : Type;
  Vector3d : Type;
  ShaderId : Type;
  ShaderProgramData : Type;
  ShaderProgramData_default : ShaderProgramData;
  shader_id : ShaderProgramData -> ShaderId;
  is_valid : ShaderId -> bool
}.

(** A small instance on which the constructor can be evaluated: identifiers
    are integers, the positive ones valid; program data is an identifier with
    a tag; poses and scales are plain data. *)
Definition sample_collaborators : Collaborators :=
  {| RigidTransformd := unit;
     Vector3d := Z * Z * Z;
     ShaderId := Z;
     ShaderProgramData := Z * string;
     ShaderProgramData_default := (0, EmptyString);
     shader_id := fst;
     is_valid := fun v => 0 <? v |}.

Section Instance.
Context `{Collaborators}.

(** The data members of [struct OpenGlInstance].  [shader_data] is a
    [std::array<ShaderProgramData, RenderType::kTypeCount>]: a list that
    keeps length [RenderType.value RenderType.kTypeCount]. *)
Record OpenGlInstance : Type := mkOpenGlInstance {
  geometry    : Z;
  X_WG        : RigidTransformd;
  scale       : Vector3d;
  shader_data : list ShaderProgramData
}.

(** [shader_data[r] = data;]  The constructor only writes at the three
    indices below [kTypeCount]. *)
Definition set_shader_data (this : OpenGlInstance) (r : RenderType.t)
    (data : ShaderProgramData) : OpenGlInstance :=
  {| geometry := geometry this;
     X_WG := X_WG this;
     scale := scale this;
     shader_data := <[RenderType.value r := data]> (shader_data this) |}.

(** [shader_data[r]] read; [None] is an index outside the array. *)
Definition shader_data_at (this : OpenGlInstance) (r : RenderType.t)
  : option ShaderProgramData :=
  shader_data this !! RenderType.value r.

(** The constructor: member initialisers ([shader_data] default-initialised),
    then the statements of its body in their order. *)
Definition OpenGlInstance_ctor
    (g_in : Z) (pose_in : RigidTransformd) (scale_in : Vector3d)
    (color_data depth_data label_data : ShaderProgramData)
  : outcome OpenGlInstance :=
  let this :=
    {| geometry := g_in;
       X_WG := pose_in;
       scale := scale_in;
       shader_data :=
         replicate (RenderType.value RenderType.kTypeCount)
                   ShaderProgramData_default |} in
  DRAKE_DEMAND "color_data.shader_id().is_valid()"
               (is_valid (shader_id color_data)) ;;
  DRAKE_DEMAND "depth_data.shader_id().is_valid()"
               (is_valid (shader_id depth_data)) ;;
  DRAKE_DEMAND "label_data.shader_id().is_valid()"
               (is_valid (shader_id label_data)) ;;
  let this := set_shader_data this RenderType.kColor color_data in
  let this := set_shader_data this RenderType.kDepth depth_data in
  let this := set_shader_data this RenderType.kLabel label_data in
  DRAKE_DEMAND "geometry >= 0" (0 <=? geometry this) ;;
  mret this.

(** The binding carries a valid shader identifier. *)
Definition binding_valid (data : ShaderProgramData) : bool :=
  is_valid (shader_id data).

End Instance.

(* ===================================================================== *)
(** ** Further definitions read off the two headers                       *)
(* ===================================================================== *)

(** The C++ type each [PixelScalar] enumerator is documented to stand for
    (the [///] line above it in the enumeration). *)
Definition scalar_channel_type (s : PixelScalar.t) : CxxType :=
  match s with
  | PixelScalar.k8U => uint8_t
  | PixelScalar.k16I => int16_t
  | PixelScalar.k16U => uint16_t
  | PixelScalar.k32F => float
  end.

(** binary32: 24 bits of precision, infinities at exponent 128. *)
Definition binary32_prec : Z := 24.
Definition binary32_emax : Z := 128.

(** The constant is a value of the given channel type: a [uint16_t] lies in
    [0, 2^16), a [float] is a binary32 datum. *)
Definition has_channel_type (v : ChannelValue) (ty : CxxType) : bool :=
  match v, ty with
  | U16 z, uint16_t => (0 <=? z) && (z <=? unsigned_max 16)
  | F32 f, float => valid_binary binary32_prec binary32_emax f
  | _, _ => false
  end.

(** [a < b] on two channel values of one type: integer order on
    [uint16_t], the IEEE comparison on [float] (false when a NaN is
    involved). *)
Definition channel_lt (a b : ChannelValue) : bool :=
  match a, b with
  | U16 x, U16 y => x <? y
  | F32 x, F32 y => SFltb x y
  | _, _ => false
  end.

(** The spelling of the enumerators of [PixelType] and [PixelFormat]. *)
Definition PixelType_name (p : PixelType.t) : string :=
  match p with
  | PixelType.kRgb8U => "kRgb8U"
  | PixelType.kBgr8U => "kBgr8U"
  | PixelType.kRgba8U => "kRgba8U"
  | PixelType.kBgra8U => "kBgra8U"
  | PixelType.kGrey8U => "kGrey8U"
  | PixelType.kDepth16U => "kDepth16U"
  | PixelType.kDepth32F => "kDepth32F"
  | PixelType.kLabel16I => "kLabel16I"
  | PixelType.kExpr => "kExpr"
  end.

Definition PixelFormat_name (f : PixelFormat.t) : string :=
  match f with
  | PixelFormat.kRgb => "kRgb"
  | PixelFormat.kBgr => "kBgr"
  | PixelFormat.kRgba => "kRgba"
  | PixelFormat.kBgra => "kBgra"
  | PixelFormat.kGrey => "kGrey"
  | PixelFormat.kDepth => "kDepth"
  | PixelFormat.kLabel => "kLabel"
  | PixelFormat.kExpr => "kExpr"
  end.

(** Bits per channel and the letter for the data type of a channel, as the
    naming rule above [enum class PixelType] lists them: I for int, U for
    unsigned int, F for float. *)
Definition channel_bits (ty : CxxType) : option string :=
  match ty with
  | uint8_t => Some "8"%string
  | int16_t | uint16_t => Some "16"%string
  | float => Some "32"%string
  | symbolic_Expression => None
  end.

Definition channel_letter (ty : CxxType) : option string :=
  match ty with
  | int16_t => Some "I"%string
  | uint8_t | uint16_t => Some "U"%string
  | float => Some "F"%string
  | symbolic_Expression => None
  end.

(** The name the rule gives to a specialisation:
    k + (pixel format) + (bit per a channel) + (data type for channels). *)
Definition conventional_name (traits : ImageTraits) : option string :=
  bits ← channel_bits (ChannelType traits);
  letter ← channel_letter (ChannelType traits);
  Some (PixelFormat_name (kPixelFormat traits) ++ bits ++ letter)%string.

(** Constructing a record and then gating its use, as a caller does before a
    draw call. *)
Definition construct_then_require
    (va vb ib n : Z) (t : bool) (v : Z) (message : string) : outcome unit :=
  g ← OpenGlGeometry_ctor va vb ib n t v;
  throw_if_undefined g message.

(* ===================================================================== *)
(** ** Part III. Properties of the pixel traits                           *)
(* ===================================================================== *)

Section PixelTraits.

(** Case analysis over the nine specialisations. *)
Local Ltac by_specialisation p :=
  destruct p; cbn; repeat split; try discriminate; try lia; eauto.

Lemma PixelType_all_complete (p : PixelType.t) : p ∈ PixelType.all.
Proof. apply list_elem_of_In. destruct p; cbn; tauto. Qed.

Lemma PixelScalar_all_complete (s : PixelScalar.t) : s ∈ PixelScalar.all.
Proof. apply list_elem_of_In. destruct s; cbn; tauto. Qed.

Lemma unsigned_max_16 : unsigned_max 16 = 65535.
Proof. reflexivity. Qed.

Lemma unsigned_max_greatest (bits v : Z) :
  0 <= v < 2 ^ bits -> v <= unsigned_max bits.
Proof. unfold unsigned_max. lia. Qed.

Lemma num_channels_range (p : PixelType.t) :
  1 <= kNumChannels (ImageTraits_of p) <= 4.
Proof. by_specialisation p. Qed.

Lemma format_depth_iff (p : PixelType.t) :
  kPixelFormat (ImageTraits_of p) = PixelFormat.kDepth <->
  p = PixelType.kDepth32F \/ p = PixelType.kDepth16U.
Proof.
  split.
  - destruct p; cbn; intros Hf; try discriminate Hf; auto.
  - intros [-> | ->]; reflexivity.
Qed.

Lemma too_close_iff (p : PixelType.t) :
  is_Some (kTooClose (ImageTraits_of p)) <->
  p = PixelType.kDepth32F \/ p = PixelType.kDepth16U.
Proof.
  split.
  - intros [v Hv]. destruct p; cbn in Hv; try discriminate Hv; auto.
  - intros [-> | ->]; cbn; eauto.
Qed.

Lemma too_far_iff (p : PixelType.t) :
  is_Some (kTooFar (ImageTraits_of p)) <->
  p = PixelType.kDepth32F \/ p = PixelType.kDepth16U.
Proof.
  split.
  - intros [v Hv]. destruct p; cbn in Hv; try discriminate Hv; auto.
  - intros [-> | ->]; cbn; eauto.
Qed.

Lemma scalar_absent_iff (p : PixelType.t) :
  kPixelScalar (ImageTraits_of p) = None <-> p = PixelType.kExpr.
Proof.
  split.
  - destruct p; cbn; intros Hs; try discriminate Hs; reflexivity.
  - intros ->; reflexivity.
Qed.

(** C7.  The depth sentinels: for [kDepth32F], [kTooClose] is [0.0f] (positive
    zero) and [kTooFar] is positive infinity; for [kDepth16U], [kTooClose] is
    [0] and [kTooFar] is [65535], the greatest 16-bit unsigned value. *)
Theorem depth_sentinels :
  kTooClose (ImageTraits_of PixelType.kDepth32F) = Some (F32 (S754_zero false)) /\
  kTooFar (ImageTraits_of PixelType.kDepth32F) = Some (F32 (S754_infinity false)) /\
  kTooClose (ImageTraits_of PixelType.kDepth16U) = Some (U16 0) /\
  kTooFar (ImageTraits_of PixelType.kDepth16U) = Some (U16 65535) /\
  65535 = unsigned_max 16.
Proof. repeat split. Qed.

(** C8, as stated: every specialisation has a channel count in 1..4 and a
    channel scalar kind.  It fails at the deprecated [kExpr], whose
    specialisation declares no [kPixelScalar]. *)
Definition every_descriptor_has_scalar : Prop :=
  forall p : PixelType.t,
    1 <= kNumChannels (ImageTraits_of p) <= 4 /\
    exists s, kPixelScalar (ImageTraits_of p) = Some s /\ s ∈ PixelScalar.all.

(** C8, counterexample: the [kExpr] specialisation declares no
    [kPixelScalar], so the statement above does not hold. *)
Lemma kExpr_has_no_scalar :
  kPixelScalar (ImageTraits_of PixelType.kExpr) = None /\
  ~ every_descriptor_has_scalar.
Proof.
  split; [reflexivity |].
  intros Hall. destruct (Hall PixelType.kExpr) as [_ [s [Hs _]]].
  discriminate Hs.
Qed.

(** C8, amended.  Every specialisation has a channel count in 1..4 and a
    semantic format; every specialisation except the deprecated [kExpr] has a
    channel scalar kind among the four of [PixelScalar]; the [kExpr]
    specialisation has none, and it alone has the format [kExpr]. *)
Theorem descriptor_attributes (p : PixelType.t) :
  1 <= kNumChannels (ImageTraits_of p) <= 4 /\
  (p <> PixelType.kExpr ->
     exists s, kPixelScalar (ImageTraits_of p) = Some s /\ s ∈ PixelScalar.all) /\
  (p = PixelType.kExpr -> kPixelScalar (ImageTraits_of p) = None) /\
  (kPixelFormat (ImageTraits_of p) = PixelFormat.kExpr <-> p = PixelType.kExpr).
Proof.
  split; [apply num_channels_range |].
  split; [| split].
  - intros Hp.
    destruct (kPixelScalar (ImageTraits_of p)) as [s |] eqn:Hs.
    + exists s. split; [reflexivity | apply PixelScalar_all_complete].
    + apply scalar_absent_iff in Hs. contradiction.
  - apply scalar_absent_iff.
  - split.
    + destruct p; cbn; intros Hf; try discriminate Hf; reflexivity.
    + intros ->; reflexivity.
Qed.

Lemma descriptor_attributes_witness :
  (exists s, kPixelScalar (ImageTraits_of PixelType.kLabel16I) = Some s /\
             s ∈ PixelScalar.all) /\
  kPixelScalar (ImageTraits_of PixelType.kExpr) = None.
Proof.
  split.
  - apply (descriptor_attributes PixelType.kLabel16I). discriminate.
  - apply (descriptor_attributes PixelType.kExpr). reflexivity.
Defined.

(** C9.  A specialisation declares [kTooClose] exactly when its format is
    [kDepth], and likewise [kTooFar]; the specialisations of depth format are
    [kDepth32F] and [kDepth16U], so the seven others declare neither. *)
Theorem sentinels_exactly_on_depth (p : PixelType.t) :
  (kPixelFormat (ImageTraits_of p) = PixelFormat.kDepth <->
     is_Some (kTooClose (ImageTraits_of p))) /\
  (kPixelFormat (ImageTraits_of p) = PixelFormat.kDepth <->
     is_Some (kTooFar (ImageTraits_of p))) /\
  (kPixelFormat (ImageTraits_of p) = PixelFormat.kDepth <->
     p = PixelType.kDepth32F \/ p = PixelType.kDepth16U) /\
  (p ∈ [PixelType.kRgb8U; PixelType.kBgr8U; PixelType.kRgba8U;
         PixelType.kBgra8U; PixelType.kGrey8U; PixelType.kLabel16I;
         PixelType.kExpr] <->
     kTooClose (ImageTraits_of p) = None /\ kTooFar (ImageTraits_of p) = None).
Proof.
  split; [| split; [| split]].
  - rewrite format_depth_iff. symmetry. apply too_close_iff.
  - rewrite format_depth_iff. symmetry. apply too_far_iff.
  - apply format_depth_iff.
  - split.
    + intros Hin.
      repeat (apply elem_of_cons in Hin as [-> | Hin]; [split; reflexivity |]).
      apply elem_of_nil in Hin. contradiction.
    + intros [Hc _].
      destruct p; cbn in Hc; try discriminate Hc;
        apply list_elem_of_In; cbn; tauto.
Qed.

End PixelTraits.

(* ===================================================================== *)
(** ** Part IV. Properties of OpenGlGeometry                              *)
(* ===================================================================== *)

Section Geometry.

Lemma kInvalid_value : kInvalid = 4294967295.
Proof. reflexivity. Qed.

Lemma handle_test (h : Z) : negb (h =? kInvalid) = true <-> h <> kInvalid.
Proof.
  rewrite negb_true_iff. split.
  - intros Hb. apply Z.eqb_neq. exact Hb.
  - intros Hne. apply Z.eqb_neq. exact Hne.
Qed.

Lemma is_defined_spec (g : OpenGlGeometry) :
  is_defined g = true <->
  vertex_array g <> kInvalid /\ vertex_buffer g <> kInvalid /\
  index_buffer g <> kInvalid.
Proof.
  unfold is_defined. rewrite !andb_true_iff, !handle_test. tauto.
Qed.

Lemma OpenGlGeometry_ctor_negative va vb ib n t v :
  n < 0 ->
  OpenGlGeometry_ctor va vb ib n t v =
  Fails (std_logic_error "Index buffer size must be non-negative").
Proof.
  intros Hn. unfold OpenGlGeometry_ctor. cbn.
  destruct (Z.ltb_spec n 0) as [_ | Hge]; [reflexivity | lia].
Qed.

Lemma OpenGlGeometry_ctor_nonnegative va vb ib n t v :
  0 <= n ->
  OpenGlGeometry_ctor va vb ib n t v = Returns (mkOpenGlGeometry va vb ib n t v).
Proof.
  intros Hn. unfold OpenGlGeometry_ctor. cbn.
  destruct (Z.ltb_spec n 0) as [Hlt | _]; [lia | reflexivity].
Qed.

(** The eight combinations of valid and invalid handles, with [1] for a valid
    handle. *)
Example is_defined_eight_combinations (a b c : bool) :
  let handle (valid : bool) := if valid then 1 else kInvalid in
  is_defined (mkOpenGlGeometry (handle a) (handle b) (handle c) 36 true 24)
  = a && b && c.
Proof. destruct a, b, c; reflexivity. Qed.

(** C1.  [is_defined] holds exactly when none of [vertex_array],
    [vertex_buffer], [index_buffer] is [kInvalid]; [kInvalid] is the greatest
    [GLuint], [2^32 - 1]; and [is_defined] does not change with
    [index_buffer_size], [has_tex_coord] or [v_count]. *)
Theorem is_defined_iff_no_invalid_handle (g : OpenGlGeometry) :
  (is_defined g = true <->
     vertex_array g <> kInvalid /\ vertex_buffer g <> kInvalid /\
     index_buffer g <> kInvalid) /\
  (kInvalid = unsigned_max GLuint_bits /\ kInvalid = 4294967295 /\
   GLuint_range kInvalid /\ ~ GLuint_range (kInvalid + 1)) /\
  (forall (n : Z) (t : bool) (v : Z),
     is_defined
       (mkOpenGlGeometry (vertex_array g) (vertex_buffer g) (index_buffer g) n t v)
     = is_defined g).
Proof.
  split; [apply is_defined_spec |]. split.
  - unfold GLuint_range. rewrite kInvalid_value.
    change (2 ^ GLuint_bits) with 4294967296.
    split; [reflexivity |]. split; [reflexivity |]. split; lia.
  - intros n t v. reflexivity.
Qed.

(** C2.  A negative [index_buffer_size_in] makes the constructor throw
    [std::logic_error]; with a non-negative one it returns, and the record
    holds exactly the six arguments. *)
Theorem OpenGlGeometry_ctor_index_count (va vb ib n : Z) (t : bool) (v : Z) :
  (n < 0 ->
     throws_logic_error (OpenGlGeometry_ctor va vb ib n t v) /\
     OpenGlGeometry_ctor va vb ib n t v =
       Fails (std_logic_error "Index buffer size must be non-negative")) /\
  (0 <= n ->
     exists g, OpenGlGeometry_ctor va vb ib n t v = Returns g /\
       vertex_array g = va /\ vertex_buffer g = vb /\ index_buffer g = ib /\
       index_buffer_size g = n /\ has_tex_coord g = t /\ v_count g = v).
Proof.
  split.
  - intros Hn. rewrite (OpenGlGeometry_ctor_negative _ _ _ _ _ _ Hn).
    split; [eexists |]; reflexivity.
  - intros Hn. rewrite (OpenGlGeometry_ctor_nonnegative _ _ _ _ _ _ Hn).
    eexists. split; [reflexivity |]. cbn. repeat split.
Qed.

Lemma OpenGlGeometry_ctor_index_count_witness :
  OpenGlGeometry_ctor 1 2 3 (-1) true 24 =
    Fails (std_logic_error "Index buffer size must be non-negative") /\
  exists g, OpenGlGeometry_ctor 1 2 3 36 true 24 = Returns g /\
    vertex_array g = 1 /\ vertex_buffer g = 2 /\ index_buffer g = 3 /\
    index_buffer_size g = 36 /\ has_tex_coord g = true /\ v_count g = 24.
Proof.
  split.
  - apply (OpenGlGeometry_ctor_index_count 1 2 3 (-1) true 24). lia.
  - apply (OpenGlGeometry_ctor_index_count 1 2 3 36 true 24). lia.
Defined.

(** C3, as stated: the constructor throws whenever the index count or the
    vertex count is negative.  The constructor never inspects [v_count]. *)
Definition negative_counts_rejected : Prop :=
  forall (va vb ib n : Z) (t : bool) (v : Z),
    n < 0 \/ v < 0 -> throws_logic_error (OpenGlGeometry_ctor va vb ib n t v).

(** C3, counterexample: index count [0] and vertex count [-1]; the
    constructor returns and the record holds [-1]. *)
Lemma negative_vertex_count_accepted :
  OpenGlGeometry_ctor 1 2 3 0 true (-1) =
    Returns (mkOpenGlGeometry 1 2 3 0 true (-1)) /\
  ~ negative_counts_rejected.
Proof.
  split; [reflexivity |].
  intros Hall.
  destruct (Hall 1 2 3 0 true (-1)) as [what Hthrow]; [right; lia |].
  discriminate Hthrow.
Qed.

(** C3, amended.  The constructor throws [std::logic_error] exactly when the
    index count is negative, whatever the vertex count; a negative vertex
    count with a non-negative index count is accepted and stored. *)
Theorem OpenGlGeometry_ctor_throws_iff (va vb ib n : Z) (t : bool) (v : Z) :
  (throws_logic_error (OpenGlGeometry_ctor va vb ib n t v) <-> n < 0) /\
  (0 <= n -> v < 0 ->
     exists g, OpenGlGeometry_ctor va vb ib n t v = Returns g /\ v_count g = v).
Proof.
  split; [split |].
  - intros [what Hthrow]. destruct (Z.lt_ge_cases n 0) as [Hlt | Hge]; [exact Hlt |].
    rewrite (OpenGlGeometry_ctor_nonnegative _ _ _ _ _ _ Hge) in Hthrow.
    discriminate Hthrow.
  - intros Hn. rewrite (OpenGlGeometry_ctor_negative _ _ _ _ _ _ Hn).
    eexists. reflexivity.
  - intros Hn _. rewrite (OpenGlGeometry_ctor_nonnegative _ _ _ _ _ _ Hn).
    eexists. split; reflexivity.
Qed.

Lemma OpenGlGeometry_ctor_throws_iff_witness :
  exists g, OpenGlGeometry_ctor 1 2 3 36 true (-24) = Returns g /\ v_count g = -24.
Proof.
  apply (OpenGlGeometry_ctor_throws_iff 1 2 3 36 true (-24)); lia.
Defined.

(** C10.  The default-constructed record has the three handles [kInvalid],
    [index_buffer_size] and [v_count] zero and [has_tex_coord] false; it is
    not defined, and [throw_if_undefined] throws for every message. *)
Theorem default_is_undefined :
  vertex_array OpenGlGeometry_default = kInvalid /\
  vertex_buffer OpenGlGeometry_default = kInvalid /\
  index_buffer OpenGlGeometry_default = kInvalid /\
  kInvalid = unsigned_max GLuint_bits /\
  index_buffer_size OpenGlGeometry_default = 0 /\
  v_count OpenGlGeometry_default = 0 /\
  has_tex_coord OpenGlGeometry_default = false /\
  is_defined OpenGlGeometry_default = false /\
  (forall message : string,
     throw_if_undefined OpenGlGeometry_default message =
       Fails (std_logic_error message)).
Proof. repeat split. Qed.

End Geometry.

(* ===================================================================== *)
(** ** Part V. Properties of OpenGlInstance                               *)
(* ===================================================================== *)

Section InstanceProperties.
Context `{Collaborators}.

Implicit Types (pose : RigidTransformd) (sc : Vector3d).
Implicit Types (color depth label : ShaderProgramData).

(** The three validity demands, in the constructor's order: the first one
    that does not hold ends the call. *)
Lemma ctor_color_invalid g pose sc color depth label :
  binding_valid color = false ->
  OpenGlInstance_ctor g pose sc color depth label =
  Fails (drake_demand_failed "color_data.shader_id().is_valid()").
Proof.
  unfold binding_valid, OpenGlInstance_ctor. intros ->. reflexivity.
Qed.

Lemma ctor_depth_invalid g pose sc color depth label :
  binding_valid color = true -> binding_valid depth = false ->
  OpenGlInstance_ctor g pose sc color depth label =
  Fails (drake_demand_failed "depth_data.shader_id().is_valid()").
Proof.
  unfold binding_valid, OpenGlInstance_ctor. intros -> ->. reflexivity.
Qed.

Lemma ctor_label_invalid g pose sc color depth label :
  binding_valid color = true -> binding_valid depth = true ->
  binding_valid label = false ->
  OpenGlInstance_ctor g pose sc color depth label =
  Fails (drake_demand_failed "label_data.shader_id().is_valid()").
Proof.
  unfold binding_valid, OpenGlInstance_ctor. intros -> -> ->. reflexivity.
Qed.

(** With three valid bindings only the demand on [geometry] is left. *)
Lemma ctor_bindings_valid g pose sc color depth label :
  binding_valid color = true -> binding_valid depth = true ->
  binding_valid label = true ->
  OpenGlInstance_ctor g pose sc color depth label =
  if 0 <=? g
  then Returns (mkOpenGlInstance g pose sc [color; label; depth])
  else Fails (drake_demand_failed "geometry >= 0").
Proof.
  unfold binding_valid, OpenGlInstance_ctor. intros -> -> ->. cbn.
  destruct (0 <=? g); reflexivity.
Qed.

Lemma ctor_returns g pose sc color depth label :
  0 <= g ->
  binding_valid color = true -> binding_valid depth = true ->
  binding_valid label = true ->
  OpenGlInstance_ctor g pose sc color depth label =
  Returns (mkOpenGlInstance g pose sc [color; label; depth]).
Proof.
  intros Hg Hc Hd Hl. rewrite ctor_bindings_valid by assumption.
  destruct (Z.leb_spec 0 g) as [_ | Hlt]; [reflexivity | lia].
Qed.

Lemma ctor_fails_inv g pose sc color depth label :
  0 <= g ->
  fails (OpenGlInstance_ctor g pose sc color depth label) ->
  binding_valid color = false \/ binding_valid depth = false \/
  binding_valid label = false.
Proof.
  intros Hg [f Hf].
  destruct (binding_valid color) eqn:Hc; [| auto].
  destruct (binding_valid depth) eqn:Hd; [| auto].
  destruct (binding_valid label) eqn:Hl; [| auto].
  rewrite (ctor_returns g pose sc _ _ _ Hg Hc Hd Hl) in Hf. discriminate Hf.
Qed.

Lemma ctor_negative_geometry g pose sc color depth label :
  g < 0 -> fails (OpenGlInstance_ctor g pose sc color depth label).
Proof.
  intros Hg.
  destruct (binding_valid color) eqn:Hc;
    [| rewrite ctor_color_invalid by exact Hc; eexists; reflexivity].
  destruct (binding_valid depth) eqn:Hd;
    [| rewrite ctor_depth_invalid by assumption; eexists; reflexivity].
  destruct (binding_valid label) eqn:Hl;
    [| rewrite ctor_label_invalid by assumption; eexists; reflexivity].
  rewrite ctor_bindings_valid by assumption.
  destruct (Z.leb_spec 0 g) as [Hge | _]; [lia | eexists; reflexivity].
Qed.

Lemma ctor_some_binding_invalid g pose sc color depth label :
  binding_valid color = false \/ binding_valid depth = false \/
  binding_valid label = false ->
  precondition_violation (OpenGlInstance_ctor g pose sc color depth label).
Proof.
  intros Hinv.
  destruct (binding_valid color) eqn:Hc;
    [| rewrite ctor_color_invalid by exact Hc; eexists; reflexivity].
  destruct (binding_valid depth) eqn:Hd;
    [| rewrite ctor_depth_invalid by assumption; eexists; reflexivity].
  destruct (binding_valid label) eqn:Hl;
    [| rewrite ctor_label_invalid by assumption; eexists; reflexivity].
  destruct Hinv as [Hf | [Hf | Hf]]; discriminate Hf.
Qed.

(** What a returned instance looks like, whatever the arguments. *)
Lemma ctor_returns_inv g pose sc color depth label inst :
  OpenGlInstance_ctor g pose sc color depth label = Returns inst ->
  binding_valid color = true /\ binding_valid depth = true /\
  binding_valid label = true /\ 0 <= g /\
  inst = mkOpenGlInstance g pose sc [color; label; depth].
Proof.
  intros Hret.
  destruct (binding_valid color) eqn:Hc;
    [| rewrite ctor_color_invalid in Hret by exact Hc; discriminate Hret].
  destruct (binding_valid depth) eqn:Hd;
    [| rewrite ctor_depth_invalid in Hret by assumption; discriminate Hret].
  destruct (binding_valid label) eqn:Hl;
    [| rewrite ctor_label_invalid in Hret by assumption; discriminate Hret].
  rewrite ctor_bindings_valid in Hret by assumption.
  destruct (Z.leb_spec 0 g) as [Hge | Hlt]; [| discriminate Hret].
  injection Hret as <-. auto.
Qed.

(** C4.  An invalid shader identifier in any of the three bindings makes the
    constructor fail a [DRAKE_DEMAND], whichever binding it is; for a
    non-negative geometry index the constructor fails exactly when some
    binding is invalid, and returns when all three are valid. *)
Theorem OpenGlInstance_ctor_shader_bindings g pose sc color depth label :
  (binding_valid color = false \/ binding_valid depth = false \/
   binding_valid label = false ->
     precondition_violation (OpenGlInstance_ctor g pose sc color depth label)) /\
  (0 <= g ->
     (precondition_violation (OpenGlInstance_ctor g pose sc color depth label) <->
      binding_valid color = false \/ binding_valid depth = false \/
      binding_valid label = false) /\
     (fails (OpenGlInstance_ctor g pose sc color depth label) <->
      binding_valid color = false \/ binding_valid depth = false \/
      binding_valid label = false)) /\
  (0 <= g ->
   binding_valid color = true -> binding_valid depth = true ->
   binding_valid label = true ->
     exists inst, OpenGlInstance_ctor g pose sc color depth label = Returns inst).
Proof.
  split; [apply ctor_some_binding_invalid |]. split.
  - intros Hg. split; split.
    + intros [c Hc]. apply (ctor_fails_inv g pose sc _ _ _ Hg).
      exists (drake_demand_failed c). exact Hc.
    + apply ctor_some_binding_invalid.
    + apply ctor_fails_inv. exact Hg.
    + intros Hinv.
      destruct (ctor_some_binding_invalid g pose sc _ _ _ Hinv) as [c Hc].
      exists (drake_demand_failed c). exact Hc.
  - intros Hg Hc Hd Hl. eexists. apply ctor_returns; assumption.
Qed.

(** C5.  With three valid bindings the constructor fails exactly when the
    geometry index is negative; for zero and every positive index it returns
    an instance whose [geometry] member is that index. *)
Theorem OpenGlInstance_ctor_geometry g pose sc color depth label :
  binding_valid color = true -> binding_valid depth = true ->
  binding_valid label = true ->
  (fails (OpenGlInstance_ctor g pose sc color depth label) <-> g < 0) /\
  (g < 0 ->
     precondition_violation (OpenGlInstance_ctor g pose sc color depth label)) /\
  (0 <= g ->
     exists inst, OpenGlInstance_ctor g pose sc color depth label = Returns inst /\
                  geometry inst = g).
Proof.
  intros Hc Hd Hl.
  rewrite (ctor_bindings_valid g pose sc _ _ _ Hc Hd Hl).
  destruct (Z.leb_spec 0 g) as [Hge | Hlt].
  - split; [split |]; [| | split].
    + intros [f Hf]. discriminate Hf.
    + lia.
    + lia.
    + intros _. eexists. split; reflexivity.
  - split; [split |]; [| | split].
    + intros _. exact Hlt.
    + intros _. eexists. reflexivity.
    + intros _. eexists. reflexivity.
    + lia.
Qed.

(** C6.  On an instance the constructor returned, reading [shader_data] at
    [kColor], [kDepth] and [kLabel] yields an element each time, and it is
    the binding passed for that render type. *)
Theorem shader_data_at_constructed g pose sc color depth label inst :
  OpenGlInstance_ctor g pose sc color depth label = Returns inst ->
  shader_data_at inst RenderType.kColor = Some color /\
  shader_data_at inst RenderType.kDepth = Some depth /\
  shader_data_at inst RenderType.kLabel = Some label /\
  length (shader_data inst) = RenderType.value RenderType.kTypeCount.
Proof.
  intros Hret.
  apply ctor_returns_inv in Hret as (_ & _ & _ & _ & ->).
  repeat split.
Qed.

End InstanceProperties.

(* ===================================================================== *)
(** ** Part VI. The constructor of OpenGlInstance on explicit arguments   *)
(* ===================================================================== *)

Module Evaluation.

Local Open Scope string_scope.

Local Abbreviation ctor := (@OpenGlInstance_ctor sample_collaborators).
Local Abbreviation instance := (@mkOpenGlInstance sample_collaborators).
Local Abbreviation read := (@shader_data_at sample_collaborators).
Local Abbreviation unset := (@ShaderProgramData_default sample_collaborators).

(** Each position on its own, and all three at once. *)
Example invalid_binding_positions :
  ctor 0 tt (1, 1, 1) unset (2, "depth") (3, "label") =
    Fails (drake_demand_failed "color_data.shader_id().is_valid()") /\
  ctor 0 tt (1, 1, 1) (1, "color") unset (3, "label") =
    Fails (drake_demand_failed "depth_data.shader_id().is_valid()") /\
  ctor 0 tt (1, 1, 1) (1, "color") (2, "depth") unset =
    Fails (drake_demand_failed "label_data.shader_id().is_valid()") /\
  ctor 0 tt (1, 1, 1) unset unset unset =
    Fails (drake_demand_failed "color_data.shader_id().is_valid()").
Proof. repeat split. Qed.

(** The array is laid out by enumerator value: colour, label, depth. *)
Example constructed_layout :
  ctor 0 tt (1, 1, 1) (1, "color") (2, "depth") (3, "label") =
    Returns (instance 0 tt (1, 1, 1) [(1, "color"); (3, "label"); (2, "depth")]).
Proof. reflexivity. Qed.

(** [kTypeCount] itself is not an index of the array. *)
Example kTypeCount_out_of_range :
  read (instance 0 tt (1, 1, 1) [(1, "color"); (3, "label"); (2, "depth")])
       RenderType.kTypeCount = None.
Proof. reflexivity. Qed.

(** A negative geometry index fails the last demand although the three
    bindings are valid. *)
Example negative_geometry_index :
  ctor (-1) tt (1, 1, 1) (1, "color") (2, "depth") (3, "label") =
    Fails (drake_demand_failed "geometry >= 0").
Proof. reflexivity. Qed.

Lemma OpenGlInstance_ctor_shader_bindings_witness :
  precondition_violation
    (ctor 0 tt (1, 1, 1) (1, "color") (0, "") (3, "label")) /\
  exists inst,
    ctor 0 tt (1, 1, 1) (1, "color") (2, "depth") (3, "label") = Returns inst.
Proof.
  split.
  - apply (proj1 (@OpenGlInstance_ctor_shader_bindings sample_collaborators
                    0 tt (1, 1, 1) (1, "color") (0, "") (3, "label"))).
    right; left; reflexivity.
  - apply (proj2 (proj2 (@OpenGlInstance_ctor_shader_bindings sample_collaborators
                           0 tt (1, 1, 1) (1, "color") (2, "depth") (3, "label"))));
      [lia | reflexivity | reflexivity | reflexivity].
Defined.

Lemma OpenGlInstance_ctor_geometry_witness :
  exists inst,
    ctor 7 tt (1, 1, 1) (1, "color") (2, "depth") (3, "label") = Returns inst /\
    geometry inst = 7%Z.
Proof.
  apply (@OpenGlInstance_ctor_geometry sample_collaborators
           7 tt (1, 1, 1) (1, "color") (2, "depth") (3, "label"));
    [reflexivity | reflexivity | reflexivity | lia].
Defined.

Lemma shader_data_at_constructed_witness :
  read (instance 0 tt (1, 1, 1) [(1, "color"); (3, "label"); (2, "depth")])
       RenderType.kColor = Some (1%Z, "color") /\
  read (instance 0 tt (1, 1, 1) [(1, "color"); (3, "label"); (2, "depth")])
       RenderType.kDepth = Some (2%Z, "depth") /\
  read (instance 0 tt (1, 1, 1) [(1, "color"); (3, "label"); (2, "depth")])
       RenderType.kLabel = Some (3%Z, "label") /\
  length (shader_data
            (instance 0 tt (1, 1, 1) [(1, "color"); (3, "label"); (2, "depth")]))
  = RenderType.value RenderType.kTypeCount.
Proof.
  apply (@shader_data_at_constructed sample_collaborators
           0 tt (1, 1, 1) (1, "color") (2, "depth") (3, "label")).
  reflexivity.
Defined.

End Evaluation.

(* ===================================================================== *)
(** ** Part VII. Further properties of the pixel traits                   *)
(* ===================================================================== *)

Section PixelTraitsFurther.

(** X1.  In every specialisation the [ChannelType] typedef is the C++ type
    that its [kPixelScalar] stands for; the one specialisation without
    [kPixelScalar] is the one over [symbolic::Expression]. *)
Theorem channel_type_matches_scalar (p : PixelType.t) :
  match kPixelScalar (ImageTraits_of p) with
  | Some s => ChannelType (ImageTraits_of p) = scalar_channel_type s
  | None => ChannelType (ImageTraits_of p) = symbolic_Expression
  end.
Proof. destruct p; reflexivity. Qed.

(** X2.  The channel count follows the pixel format: three channels exactly
    for [kRgb] and [kBgr], four exactly for [kRgba] and [kBgra], one exactly
    for the remaining formats. *)
Theorem channels_by_format (p : PixelType.t) :
  (kNumChannels (ImageTraits_of p) = 3 <->
     kPixelFormat (ImageTraits_of p) = PixelFormat.kRgb \/
     kPixelFormat (ImageTraits_of p) = PixelFormat.kBgr) /\
  (kNumChannels (ImageTraits_of p) = 4 <->
     kPixelFormat (ImageTraits_of p) = PixelFormat.kRgba \/
     kPixelFormat (ImageTraits_of p) = PixelFormat.kBgra) /\
  (kNumChannels (ImageTraits_of p) = 1 <->
     kPixelFormat (ImageTraits_of p) <> PixelFormat.kRgb /\
     kPixelFormat (ImageTraits_of p) <> PixelFormat.kBgr /\
     kPixelFormat (ImageTraits_of p) <> PixelFormat.kRgba /\
     kPixelFormat (ImageTraits_of p) <> PixelFormat.kBgra).
Proof.
  destruct p; cbn; repeat split;
    try discriminate; try (intros [Hf | Hf]; discriminate Hf); auto;
    intros (H1 & H2 & H3 & H4); congruence.
Qed.

(** The two depth types differ only in the scalar: the format alone does not
    tell pixel types apart. *)
Example depth_types_share_format :
  kPixelFormat (ImageTraits_of PixelType.kDepth16U) =
  kPixelFormat (ImageTraits_of PixelType.kDepth32F).
Proof. reflexivity. Qed.

(** X3.  Format and scalar together identify the pixel type: two pixel types
    whose specialisations agree on [kPixelFormat] and on [kPixelScalar] are
    the same. *)
Theorem format_and_scalar_identify (p q : PixelType.t) :
  kPixelFormat (ImageTraits_of p) = kPixelFormat (ImageTraits_of q) ->
  kPixelScalar (ImageTraits_of p) = kPixelScalar (ImageTraits_of q) ->
  p = q.
Proof.
  destruct p, q; cbn; intros Hf Hs;
    try reflexivity; try discriminate Hf; discriminate Hs.
Qed.

Lemma format_and_scalar_identify_witness :
  PixelType.kDepth16U = PixelType.kDepth16U.
Proof.
  apply (format_and_scalar_identify PixelType.kDepth16U PixelType.kDepth16U);
    reflexivity.
Defined.

(** X4.  Where both sentinels are declared they are values of the
    specialisation's [ChannelType], and [kTooClose < kTooFar]. *)
Theorem depth_sentinels_typed_and_ordered (p : PixelType.t) (lo hi : ChannelValue) :
  kTooClose (ImageTraits_of p) = Some lo ->
  kTooFar (ImageTraits_of p) = Some hi ->
  has_channel_type lo (ChannelType (ImageTraits_of p)) = true /\
  has_channel_type hi (ChannelType (ImageTraits_of p)) = true /\
  channel_lt lo hi = true.
Proof.
  destruct p; cbn; intros Hlo Hhi;
    try discriminate Hlo;
    injection Hlo as <-; injection Hhi as <-; repeat split.
Qed.

Lemma depth_sentinels_typed_and_ordered_witness :
  has_channel_type (F32 float_zero) float = true /\
  has_channel_type (F32 float_infinity) float = true /\
  channel_lt (F32 float_zero) (F32 float_infinity) = true.
Proof.
  apply (depth_sentinels_typed_and_ordered PixelType.kDepth32F); reflexivity.
Defined.

Lemma nothing_above_infinity (f : spec_float) : SFltb float_infinity f = false.
Proof. destruct f as [s | s | | s m e]; try destruct s; reflexivity. Qed.

(** X5.  No value of the channel type is greater than [kTooFar]: every
    [uint16_t] is at most [65535], and no [float], NaN included, compares
    greater than positive infinity. *)
Theorem too_far_is_greatest (p : PixelType.t) (hi v : ChannelValue) :
  kTooFar (ImageTraits_of p) = Some hi ->
  has_channel_type v (ChannelType (ImageTraits_of p)) = true ->
  channel_lt hi v = false.
Proof.
  destruct p; cbn; intros Hhi Hv; try discriminate Hhi; injection Hhi as <-.
  - destruct v as [z | f]; [| discriminate Hv].
    apply andb_true_iff in Hv as [_ Hle]. cbn.
    apply Z.ltb_ge. apply Z.leb_le. exact Hle.
  - destruct v as [z | f]; [discriminate Hv |].
    apply nothing_above_infinity.
Qed.

Lemma too_far_is_greatest_witness :
  channel_lt (U16 65535) (U16 1234) = false.
Proof.
  apply (too_far_is_greatest PixelType.kDepth16U (U16 65535) (U16 1234));
    reflexivity.
Defined.

(** X6.  The enumerators of [PixelType] follow the documented naming rule:
    apart from the deprecated [kExpr], each is spelled as the format
    enumerator of its specialisation followed by the bit width and the data
    type letter of its [ChannelType]. *)
Theorem names_follow_rule (p : PixelType.t) :
  p <> PixelType.kExpr ->
  conventional_name (ImageTraits_of p) = Some (PixelType_name p).
Proof. destruct p; intros Hp; try reflexivity. contradiction. Qed.

Lemma names_follow_rule_witness :
  conventional_name (ImageTraits_of PixelType.kLabel16I) = Some "kLabel16I"%string.
Proof. apply (names_follow_rule PixelType.kLabel16I). discriminate. Defined.

End PixelTraitsFurther.

(* ===================================================================== *)
(** ** Part VIII. Further properties of OpenGlGeometry                    *)
(* ===================================================================== *)

Section GeometryFurther.

Lemma is_defined_false_iff (g : OpenGlGeometry) :
  is_defined g = false <->
  vertex_array g = kInvalid \/ vertex_buffer g = kInvalid \/
  index_buffer g = kInvalid.
Proof.
  unfold is_defined. rewrite !andb_false_iff, !negb_false_iff, !Z.eqb_eq. tauto.
Qed.

(** X7.  [throw_if_undefined] returns exactly on the records none of whose
    handles is [kInvalid]; on every other record it throws
    [std::logic_error] with the caller's message, and it fails in no other
    way. *)
Theorem throw_if_undefined_spec (g : OpenGlGeometry) (message : string) :
  (throw_if_undefined g message = Returns tt <->
     vertex_array g <> kInvalid /\ vertex_buffer g <> kInvalid /\
     index_buffer g <> kInvalid) /\
  (throw_if_undefined g message = Fails (std_logic_error message) <->
     vertex_array g = kInvalid \/ vertex_buffer g = kInvalid \/
     index_buffer g = kInvalid) /\
  (forall f, throw_if_undefined g message = Fails f ->
     f = std_logic_error message).
Proof.
  rewrite <- is_defined_spec, <- is_defined_false_iff.
  unfold throw_if_undefined. destruct (is_defined g); cbn.
  - repeat split; try discriminate; auto.
  - repeat split; try discriminate; auto. intros f Hf. congruence.
Qed.

(** X8.  Construction followed by the gate: the index-count check comes
    first, so a negative count is reported with the constructor's message
    even when a handle is invalid; the constructor itself accepts invalid
    handles, which only the gate reports; the pair succeeds exactly on a
    non-negative count with three handles other than [kInvalid]. *)
Theorem construct_then_require_spec
    (va vb ib n : Z) (t : bool) (v : Z) (message : string) :
  (construct_then_require va vb ib n t v message = Returns tt <->
     0 <= n /\ va <> kInvalid /\ vb <> kInvalid /\ ib <> kInvalid) /\
  (n < 0 ->
     construct_then_require va vb ib n t v message =
       Fails (std_logic_error "Index buffer size must be non-negative")) /\
  (0 <= n -> va = kInvalid \/ vb = kInvalid \/ ib = kInvalid ->
     (exists g, OpenGlGeometry_ctor va vb ib n t v = Returns g /\
                is_defined g = false) /\
     construct_then_require va vb ib n t v message =
       Fails (std_logic_error message)).
Proof.
  unfold construct_then_require.
  destruct (Z.lt_ge_cases n 0) as [Hlt | Hge].
  - rewrite (OpenGlGeometry_ctor_negative _ _ _ _ _ _ Hlt). cbn.
    split; [split |]; [discriminate | lia |].
    split; [reflexivity | lia].
  - rewrite (OpenGlGeometry_ctor_nonnegative _ _ _ _ _ _ Hge). cbn.
    pose proof (throw_if_undefined_spec (mkOpenGlGeometry va vb ib n t v) message)
      as (Hret & Hthrow & _). cbn in Hret, Hthrow.
    split; [| split].
    + rewrite Hret. tauto.
    + lia.
    + intros _ Hinv. split.
      * eexists. split; [reflexivity |]. apply is_defined_false_iff. exact Hinv.
      * apply Hthrow. exact Hinv.
Qed.

Lemma construct_then_require_spec_witness :
  construct_then_require kInvalid 2 3 (-1) true 24 "undefined geometry" =
    Fails (std_logic_error "Index buffer size must be non-negative") /\
  construct_then_require kInvalid 2 3 36 true 24 "undefined geometry" =
    Fails (std_logic_error "undefined geometry").
Proof.
  split.
  - apply (construct_then_require_spec kInvalid 2 3 (-1) true 24). lia.
  - apply (proj2 (proj2 (construct_then_require_spec kInvalid 2 3 36 true 24
                           "undefined geometry")));
      [lia | left; reflexivity].
Defined.

End GeometryFurther.

(* ===================================================================== *)
(** ** Part IX. Further properties of RenderType and OpenGlInstance       *)
(* ===================================================================== *)

Section RenderTypeFurther.

(** X9.  The render types index the array without gap or clash: every
    position below [kTypeCount] is the value of exactly one enumerator, and
    that enumerator is not [kTypeCount]. *)
Theorem render_types_index_array (n : nat) :
  (n < RenderType.value RenderType.kTypeCount)%nat ->
  exists r, r <> RenderType.kTypeCount /\ RenderType.value r = n /\
            forall r', RenderType.value r' = n -> r' = r.
Proof.
  intros Hn. cbn in Hn.
  destruct n as [| [| [| n]]]; [| | | lia].
  - exists RenderType.kColor. repeat split; [discriminate |].
    intros r' Hr'. destruct r'; cbn in Hr'; congruence.
  - exists RenderType.kLabel. repeat split; [discriminate |].
    intros r' Hr'. destruct r'; cbn in Hr'; congruence.
  - exists RenderType.kDepth. repeat split; [discriminate |].
    intros r' Hr'. destruct r'; cbn in Hr'; congruence.
Qed.

Lemma render_types_index_array_witness :
  exists r, r <> RenderType.kTypeCount /\ RenderType.value r = 2%nat /\
            forall r', RenderType.value r' = 2%nat -> r' = r.
Proof. apply (render_types_index_array 2). cbn. lia. Defined.

End RenderTypeFurther.

Section InstanceFurther.
Context `{Collaborators}.

Implicit Types (pose : RigidTransformd) (sc : Vector3d).
Implicit Types (color depth label : ShaderProgramData).

(** X10.  The demands are made in the order colour, depth, label, geometry,
    and the first that does not hold is the one reported: each failure is
    characterised by the demands before it holding and its own not. *)
Theorem OpenGlInstance_ctor_first_failure g pose sc color depth label :
  (OpenGlInstance_ctor g pose sc color depth label =
     Fails (drake_demand_failed "color_data.shader_id().is_valid()") <->
   binding_valid color = false) /\
  (OpenGlInstance_ctor g pose sc color depth label =
     Fails (drake_demand_failed "depth_data.shader_id().is_valid()") <->
   binding_valid color = true /\ binding_valid depth = false) /\
  (OpenGlInstance_ctor g pose sc color depth label =
     Fails (drake_demand_failed "label_data.shader_id().is_valid()") <->
   binding_valid color = true /\ binding_valid depth = true /\
   binding_valid label = false) /\
  (OpenGlInstance_ctor g pose sc color depth label =
     Fails (drake_demand_failed "geometry >= 0") <->
   binding_valid color = true /\ binding_valid depth = true /\
   binding_valid label = true /\ g < 0).
Proof.
  destruct (binding_valid color) eqn:Hc.
  2: { rewrite (ctor_color_invalid g pose sc _ _ _ Hc).
       intuition (try congruence). }
  destruct (binding_valid depth) eqn:Hd.
  2: { rewrite (ctor_depth_invalid g pose sc _ _ _ Hc Hd).
       intuition (try congruence). }
  destruct (binding_valid label) eqn:Hl.
  2: { rewrite (ctor_label_invalid g pose sc _ _ _ Hc Hd Hl).
       intuition (try congruence). }
  rewrite (ctor_bindings_valid g pose sc _ _ _ Hc Hd Hl).
  destruct (Z.leb_spec 0 g) as [Hge | Hlt].
  - intuition (try congruence; try lia).
  - intuition (try congruence; try lia).
Qed.

(** X11.  The two ways of failing do not mix: the [OpenGlGeometry]
    constructor and [throw_if_undefined] never fail a [DRAKE_DEMAND], and
    the [OpenGlInstance] constructor never throws [std::logic_error]. *)
Theorem failure_kinds_do_not_mix :
  (forall va vb ib n t v,
     ~ precondition_violation (OpenGlGeometry_ctor va vb ib n t v)) /\
  (forall g message, ~ precondition_violation (throw_if_undefined g message)) /\
  (forall g pose sc color depth label,
     ~ throws_logic_error (OpenGlInstance_ctor g pose sc color depth label)).
Proof.
  split; [| split].
  - intros va vb ib n t v [c Hc]. unfold OpenGlGeometry_ctor in Hc. cbn in Hc.
    destruct (n <? 0); discriminate Hc.
  - intros g message [c Hc]. unfold throw_if_undefined in Hc.
    destruct (negb (is_defined g)); discriminate Hc.
  - intros g pose sc color depth label [what Hw].
    destruct (binding_valid color) eqn:Hc;
      [| rewrite ctor_color_invalid in Hw by exact Hc; discriminate Hw].
    destruct (binding_valid depth) eqn:Hd;
      [| rewrite ctor_depth_invalid in Hw by assumption; discriminate Hw].
    destruct (binding_valid label) eqn:Hl;
      [| rewrite ctor_label_invalid in Hw by assumption; discriminate Hw].
    rewrite ctor_bindings_valid in Hw by assumption.
    destruct (0 <=? g); discriminate Hw.
Qed.

(** X12.  What holds of every instance the constructor returns: the
    geometry index is non-negative, pose and scale are the arguments, the
    array has [kTypeCount] elements, each of them carries a valid shader
    identifier, and each is one of the three arguments, so no
    default-constructed element is left. *)
Theorem constructed_instance_invariant g pose sc color depth label inst :
  OpenGlInstance_ctor g pose sc color depth label = Returns inst ->
  0 <= geometry inst /\
  X_WG inst = pose /\ scale inst = sc /\
  length (shader_data inst) = RenderType.value RenderType.kTypeCount /\
  Forall (fun data => binding_valid data = true) (shader_data inst) /\
  (forall data, data ∈ shader_data inst <->
                data = color \/ data = depth \/ data = label).
Proof.
  intros Hret.
  apply ctor_returns_inv in Hret as (Hc & Hd & Hl & Hg & ->). cbn.
  split; [exact Hg |]. do 3 (split; [reflexivity |]). split.
  - repeat constructor; assumption.
  - intros data. rewrite !elem_of_cons, elem_of_nil. tauto.
Qed.

(** X13.  Pose and scale are never examined: with the same index and
    bindings the constructor fails in the same way, or returns, whatever
    pose and scale are passed. *)
Theorem ctor_ignores_pose_and_scale g pose sc pose' sc' color depth label :
  (forall f, OpenGlInstance_ctor g pose sc color depth label = Fails f <->
             OpenGlInstance_ctor g pose' sc' color depth label = Fails f) /\
  ((exists inst, OpenGlInstance_ctor g pose sc color depth label = Returns inst) <->
   (exists inst, OpenGlInstance_ctor g pose' sc' color depth label = Returns inst)).
Proof.
  destruct (binding_valid color) eqn:Hc.
  2: { rewrite !(ctor_color_invalid g _ _ _ _ _ Hc).
       split; [tauto |]. split; intros [inst Hi]; discriminate Hi. }
  destruct (binding_valid depth) eqn:Hd.
  2: { rewrite !(ctor_depth_invalid g _ _ _ _ _ Hc Hd).
       split; [tauto |]. split; intros [inst Hi]; discriminate Hi. }
  destruct (binding_valid label) eqn:Hl.
  2: { rewrite !(ctor_label_invalid g _ _ _ _ _ Hc Hd Hl).
       split; [tauto |]. split; intros [inst Hi]; discriminate Hi. }
  rewrite !(ctor_bindings_valid g _ _ _ _ _ Hc Hd Hl).
  destruct (0 <=? g).
  - split; [| split; intros _; eexists; reflexivity].
    intros f. split; intros Hf; discriminate Hf.
  - split; [tauto |]. split; intros [inst Hi]; discriminate Hi.
Qed.

End InstanceFurther.

Module EvaluationFurther.

Local Open Scope string_scope.

Lemma constructed_instance_invariant_witness :
  let inst := @mkOpenGlInstance sample_collaborators 4 tt (1, -1, 2)
                [(1, "color"); (3, "label"); (2, "depth")] in
  0 <= geometry inst /\
  X_WG inst = tt /\ scale inst = (1, -1, 2) /\
  length (shader_data inst) = RenderType.value RenderType.kTypeCount /\
  Forall (fun data => @binding_valid sample_collaborators data = true)
         (shader_data inst) /\
  (forall data, data ∈ shader_data inst <->
                data = (1%Z, "color") \/ data = (2%Z, "depth") \/
                data = (3%Z, "label")).
Proof.
  apply (@constructed_instance_invariant sample_collaborators
           4 tt (1, -1, 2) (1, "color") (2, "depth") (3, "label")).
  reflexivity.
Defined.

End EvaluationFurther.
